(** * docs/conf.py of pgcopydb: the Sphinx configuration module

    The module is a sequence of top-level assignments, two imports, one
    class statement and one attribute assignment on an imported class.
    The development has two layers:

    - [Conf]: the module-level variables as Rocq constants, one per
      assignment of the source, with the same names;
    - [Py]: the execution of the module body, statement by statement,
      over a store made of the module namespace, the table of imported
      modules and a heap of class objects; [Glob] holds the pattern
      grammar the exclusion list is checked against.  *)

From Stdlib Require Import ZArith Ascii.
From stdpp Require Import base option strings list gmap fin_maps.

Open Scope Z_scope.
Open Scope string_scope.

(** ** Module-level variables *)

Module Conf.

(** -- Project information (conf.py, lines 20-26) *)
Definition project : string := "pgcopydb".
Definition copyright : string := "2022, Dimitri Fontaine".
Definition author : string := "Dimitri Fontaine".

Definition version : string := "0.10".
Definition release : string := "0.10".

(** -- General configuration (lines 34-48) *)
Definition master_doc : string := "index".
Definition extensions : list string := [].
Definition templates_path : list string := ["_templates"].
Definition exclude_patterns : list string := ["_build"; "Thumbs.db"; ".DS_Store"].

(** -- Options for HTML output (lines 56-61) *)
Definition html_theme : string := "sphinx_rtd_theme".
Definition html_static_path : list string := ["_static"].

(** -- Options for manual page output (lines 82-150).
    One entry per manual page, a tuple
    (source start file, name, description, authors, manual section). *)
Record man_page : Type := ManPage {
  source : string;
  name : string;
  description : string;
  authors : list string;
  section : Z
}.

Definition man_pages : list man_page := [
  ManPage "ref/pgcopydb" "pgcopydb" "pgcopydb" [author] 1;
  ManPage "ref/pgcopydb_config" "pgcopydb" "pgcopydb" [author] 5;
  ManPage "ref/pgcopydb_clone" "pgcopydb clone" "pgcopydb clone" [author] 1;
  ManPage "ref/pgcopydb_clone" "pgcopydb fork" "pgcopydb fork" [author] 1;
  ManPage "ref/pgcopydb_follow" "pgcopydb follow" "pgcopydb follow" [author] 1;
  ManPage "ref/pgcopydb_snapshot" "pgcopydb snapshot" "pgcopydb snapshot" [author] 1;
  ManPage "ref/pgcopydb_copy" "pgcopydb copy" "pgcopydb copy" [author] 1;
  ManPage "ref/pgcopydb_dump" "pgcopydb dump" "pgcopydb dump" [author] 1;
  ManPage "ref/pgcopydb_restore" "pgcopydb restore" "pgcopydb restore" [author] 1;
  ManPage "ref/pgcopydb_list" "pgcopydb list" "pgcopydb list" [author] 1;
  ManPage "ref/pgcopydb_stream" "pgcopydb stream" "pgcopydb stream" [author] 1
].

(** The key under which two entries of the table would collide: the manual
    section together with the (document, command) pair. *)
Definition page_key (e : man_page) : Z * (string * string) :=
  (section e, (source e, name e)).

(** The entries generated from one source document. *)
Definition pages_of (doc : string) (l : list man_page) : list man_page :=
  filter (λ e, source e = doc) l.

End Conf.

(** ** Glob patterns *)

Module Glob.

(** Modelled from the spec: the spec asks that every exclusion pattern be a
    syntactically valid glob, and conf.py holds no glob grammar (Sphinx
    interprets the patterns). The grammar here is the shell-style one of
    Python's fnmatch, which Sphinx's matcher follows: [*] and [?] are
    wildcards, [[...]] is a character class, optionally negated by a leading
    [!], in which a []] in first position is a member; every other character
    stands for itself. A class that is never closed is a syntax error. *)
Inductive item : Type :=
  | Lit (c : ascii)
  | AnyChar
  | AnySeq
  | Class (negated : bool) (members : list ascii).

Inductive pstate : Type :=
  | Outside
  | Opened
  | First (negated : bool)
  | Inside (negated : bool) (acc : list ascii).

Fixpoint parse_from (st : pstate) (s : string) : option (list item) :=
  match s with
  | EmptyString =>
      match st with
      | Outside => Some []
      | _ => None
      end
  | String c r =>
      match st with
      | Outside =>
          if decide (c = "*"%char) then (AnySeq ::.) <$> parse_from Outside r
          else if decide (c = "?"%char) then (AnyChar ::.) <$> parse_from Outside r
          else if decide (c = "["%char) then parse_from Opened r
          else (Lit c ::.) <$> parse_from Outside r
      | Opened =>
          if decide (c = "!"%char) then parse_from (First true) r
          else parse_from (Inside false [c]) r
      | First neg => parse_from (Inside neg [c]) r
      | Inside neg acc =>
          if decide (c = "]"%char)
          then (Class neg (rev acc) ::.) <$> parse_from Outside r
          else parse_from (Inside neg (c :: acc)) r
      end
  end.

Definition parse (s : string) : option (list item) := parse_from Outside s.

(** Modelled from the spec: a pattern is syntactically valid when the
    grammar above reads all of it. *)
Definition valid_glob (s : string) : Prop := is_Some (parse s).

(** The characters that open a construct of the grammar. *)
Definition special (c : ascii) : bool :=
  bool_decide (c = "*"%char) || bool_decide (c = "?"%char) || bool_decide (c = "["%char).

Fixpoint chars (s : string) : list ascii :=
  match s with
  | EmptyString => []
  | String c r => c :: chars r
  end.

End Glob.

(** ** Execution of the module body *)

Module Py.

(** Object identities. *)
Definition loc : Type := positive.

(** The Python values conf.py builds or refers to. *)
#[warnings="-register-all"] Inductive value : Type :=
  | VNone
  | VStr (s : string)
  | VInt (n : Z)
  | VList (vs : list value)
  | VTuple (vs : list value)
  | VFun (qualname : string)
  | VRef (l : loc).

(** An ordinary class object: one that accepts subclasses and attribute
    assignment (no metaclass of its own, no hook on subclassing), as the
    two classes conf.py imports are. It has its bases, the classes derived
    from it, in the order they were defined (what [__subclasses__()]
    returns), and its attribute dictionary. *)
Record object : Type := Object {
  bases : list loc;
  subclasses : list loc;
  attrs : gmap string value
}.

(** What defining a class [c] does to each of its bases. *)
Definition register_subclass (c : loc) (o : object) : object :=
  Object (bases o) (subclasses o ++ [c]) (attrs o).

(** What [o.a = v] does to the class [o]. *)
Definition set_attr (a : string) (v : value) (o : object) : object :=
  Object (bases o) (subclasses o) (<[a := v]> (attrs o)).

(** The value of [__name__] as a class body reads it: the one of the
    namespace, or else the one of the builtins module. *)
Definition module_name (g : gmap string value) : value :=
  default (VStr "builtins") (g !! "__name__").

(** The dictionary of a class whose body ends with the bindings [body]:
    the class statement sets [__module__] before the body runs and
    [__doc__] when the body has no docstring (Python up to 3.12; later
    versions add two entries of their own). *)
Definition class_dict (m : value) (body : gmap string value) : gmap string value :=
  body ∪ {[ "__module__" := m; "__doc__" := VNone ]}.

(** The state the module body runs in: the namespace it is executed in,
    the table of already imported modules (module name to namespace), and
    the heap of ordinary class objects. *)
Record store : Type := Store {
  globals : gmap string value;
  modules : gmap string (gmap string value);
  heap : gmap loc object
}.

Definition set_globals (g : gmap string value) (s : store) : store :=
  Store g (modules s) (heap s).

Definition set_heap (h : gmap loc object) (s : store) : store :=
  Store (globals s) (modules s) h.

(** A computation either raises (None) or returns a result and a store. *)
Definition M (A : Type) : Type := store → option (A * store).

Definition ret {A} (a : A) : M A := λ s, Some (a, s).

Definition bind {A B} (m : M A) (k : A → M B) : M B :=
  λ s, match m s with
       | Some (a, s') => k a s'
       | None => None
       end.

Notation "'let*' x ':=' m 'in' k" := (bind m (λ x, k))
  (at level 10, x name, m at level 100, k at level 200).
Notation "m1 ;; m2" := (bind m1 (λ _, m2))
  (at level 100, m2 at level 200, right associativity).

(** *** Expressions *)

Definition str (x : string) : M value := ret (VStr x).
Definition int (n : Z) : M value := ret (VInt n).

(** A name is looked up in the module namespace; an unbound name raises. *)
Definition load_name (x : string) : M value :=
  λ s, match globals s !! x with
       | Some v => Some (v, s)
       | None => None
       end.

(** The items of a display are evaluated left to right. *)
Fixpoint eval_items (es : list (M value)) : M (list value) :=
  match es with
  | [] => ret []
  | e :: es' => let* v := e in let* vs := eval_items es' in ret (v :: vs)
  end.

Definition list_lit (es : list (M value)) : M value :=
  let* vs := eval_items es in ret (VList vs).

Definition tuple_lit (es : list (M value)) : M value :=
  let* vs := eval_items es in ret (VTuple vs).

(** *** Statements *)

(** [x = e] *)
Definition assign (x : string) (e : M value) : M unit :=
  let* v := e in λ s, Some (tt, set_globals (<[x := v]> (globals s)) s).

(** [from m import x], for a module that is already loaded: the name is
    bound to what the module's namespace holds, and a name that is not
    there raises. Importing a module that is not loaded yet runs that
    module's code, which is not modelled: the statements about [load] all
    assume the two modules loaded, and the [None] given here for a module
    that is absent from the table says nothing of Python. *)
Definition import_from (m x : string) : M unit :=
  λ s, match modules s !! m with
       | Some ns =>
           match ns !! x with
           | Some v => Some (tt, set_globals (<[x := v]> (globals s)) s)
           | None => None
           end
       | None => None
       end.

(** [class x(base): body]: the base is evaluated and must be a class of
    the heap (a string, a number, a list, a tuple or None is refused). A
    new class object, with the base as its only base, no subclass yet and
    the dictionary the body leaves, is allocated at an unused identity; it
    is added to the subclasses of the base and bound to [x]. *)
Definition class_def (x base : string) (body : gmap string value) : M unit :=
  let* b := load_name base in
  λ s, match b with
       | VRef lb =>
           match heap s !! lb with
           | Some ob =>
               let c := fresh (dom (heap s)) in
               Some (tt, Store (<[x := VRef c]> (globals s)) (modules s)
                               (<[c := Object [lb] [] (class_dict (module_name (globals s)) body)]>
                                  (<[lb := register_subclass c ob]> (heap s))))
           | None => None
           end
       | _ => None
       end.

(** [target.attr = e]: the right-hand side is evaluated first, then the
    target, which must be a class of the heap (a string, a number, a list,
    a tuple or None takes no new attribute). Function objects, which
    Python lets carry attributes, are values without a dictionary here:
    the [None] given for such a target says nothing of Python. *)
Definition store_attr (target attr : string) (e : M value) : M unit :=
  let* v := e in
  let* t := load_name target in
  λ s, match t with
       | VRef l =>
           match heap s !! l with
           | Some o =>
               Some (tt, set_heap (<[l := set_attr attr v o]> (heap s)) s)
           | None => None
           end
       | _ => None
       end.

(** *** The body of conf.py, in source order *)

Definition man_page_entry (doc name description : string) (section : Z) : M value :=
  tuple_lit [str doc; str name; str description; list_lit [load_name "author"]; int section].

Definition load : M unit :=
  assign "project" (str "pgcopydb") ;;
  assign "copyright" (str "2022, Dimitri Fontaine") ;;
  assign "author" (str "Dimitri Fontaine") ;;
  assign "version" (str "0.10") ;;
  assign "release" (str "0.10") ;;
  assign "master_doc" (str "index") ;;
  assign "extensions" (list_lit []) ;;
  assign "templates_path" (list_lit [str "_templates"]) ;;
  assign "exclude_patterns" (list_lit [str "_build"; str "Thumbs.db"; str ".DS_Store"]) ;;
  assign "html_theme" (str "sphinx_rtd_theme") ;;
  assign "html_static_path" (list_lit [str "_static"]) ;;
  import_from "sphinx.highlighting" "PygmentsBridge" ;;
  import_from "pygments.formatters.latex" "LatexFormatter" ;;
  class_def "CustomLatexFormatter" "LatexFormatter"
            {[ "__init__" := VFun "CustomLatexFormatter.__init__" ]} ;;
  store_attr "PygmentsBridge" "latex_formatter" (load_name "CustomLatexFormatter") ;;
  assign "man_pages" (list_lit [
    man_page_entry "ref/pgcopydb" "pgcopydb" "pgcopydb" 1;
    man_page_entry "ref/pgcopydb_config" "pgcopydb" "pgcopydb" 5;
    man_page_entry "ref/pgcopydb_clone" "pgcopydb clone" "pgcopydb clone" 1;
    man_page_entry "ref/pgcopydb_clone" "pgcopydb fork" "pgcopydb fork" 1;
    man_page_entry "ref/pgcopydb_follow" "pgcopydb follow" "pgcopydb follow" 1;
    man_page_entry "ref/pgcopydb_snapshot" "pgcopydb snapshot" "pgcopydb snapshot" 1;
    man_page_entry "ref/pgcopydb_copy" "pgcopydb copy" "pgcopydb copy" 1;
    man_page_entry "ref/pgcopydb_dump" "pgcopydb dump" "pgcopydb dump" 1;
    man_page_entry "ref/pgcopydb_restore" "pgcopydb restore" "pgcopydb restore" 1;
    man_page_entry "ref/pgcopydb_list" "pgcopydb list" "pgcopydb list" 1;
    man_page_entry "ref/pgcopydb_stream" "pgcopydb stream" "pgcopydb stream" 1
  ]).

(** *** The values of the module-level constants *)

Definition of_strings (l : list string) : value := VList (VStr <$> l).

Definition of_man_page (e : Conf.man_page) : value :=
  VTuple [VStr (Conf.source e); VStr (Conf.name e); VStr (Conf.description e);
          of_strings (Conf.authors e); VInt (Conf.section e)].

(** The bindings the module body makes, in source order, when
    PygmentsBridge is [pb], LatexFormatter is [lf] and the new class is
    allocated at [c]. *)
Definition bindings (pb lf c : loc) : list (string * value) := [
  ("project", VStr Conf.project);
  ("copyright", VStr Conf.copyright);
  ("author", VStr Conf.author);
  ("version", VStr Conf.version);
  ("release", VStr Conf.release);
  ("master_doc", VStr Conf.master_doc);
  ("extensions", of_strings Conf.extensions);
  ("templates_path", of_strings Conf.templates_path);
  ("exclude_patterns", of_strings Conf.exclude_patterns);
  ("html_theme", VStr Conf.html_theme);
  ("html_static_path", of_strings Conf.html_static_path);
  ("PygmentsBridge", VRef pb);
  ("LatexFormatter", VRef lf);
  ("CustomLatexFormatter", VRef c);
  ("man_pages", VList (of_man_page <$> Conf.man_pages))
].

Definition bind_all (bs : list (string * value)) (g : gmap string value) : gmap string value :=
  foldl (λ g b, <[b.1 := b.2]> g) g bs.

(** The class object the class statement builds, in a namespace whose
    [__name__] reads [m]. *)
Definition CustomLatexFormatter_class (m : value) (lf : loc) : object :=
  Object [lf] [] (class_dict m {[ "__init__" := VFun "CustomLatexFormatter.__init__" ]}).

(** The heap the module body leaves, from a heap [h] in which
    PygmentsBridge is [o] at [pb] and LatexFormatter is [olf] at [lf], the
    new class being allocated at [c]: the class statement registers the
    new class with LatexFormatter, then line 77 rebinds the attribute of
    PygmentsBridge (which is [o], unless the two names are one class). *)
Definition loaded_heap (m : value) (pb lf c : loc) (o olf : object)
    (h : gmap loc object) : gmap loc object :=
  <[pb := set_attr "latex_formatter" (VRef c)
            (if decide (pb = lf) then register_subclass c olf else o)]>
    (<[c := CustomLatexFormatter_class m lf]>
       (<[lf := register_subclass c olf]> h)).

(** *** Instances of the formatter classes *)

Section Formatter.

(** pygments' [LatexFormatter.__init__], a third-party method: from the
    keyword options and the attribute dictionary of [self] to the
    dictionary it leaves, or an exception. It has the signature of the
    subclass's initializer (self, then the options as keywords), and
    verboptions is a plain instance attribute of its class. *)
Variable LatexFormatter_init :
  gmap string value → gmap string value → option (gmap string value).

(** [CustomLatexFormatter.__init__] (conf.py, lines 72-74): the options
    are handed to the base initializer as they came, then verboptions is
    assigned. With the base above, the steps of its own (binding the
    arguments, assigning the attribute) fail nowhere the base does not. *)
Definition CustomLatexFormatter_init
    (options self : gmap string value) : option (gmap string value) :=
  match LatexFormatter_init options self with
  | Some self' => Some (<["verboptions" := VStr "formatcom=\scriptsize"]> self')
  | None => None
  end.

End Formatter.

(** Calling a class with keyword options: a new instance starts with an empty attribute
    dictionary, which the initializer of its class fills. *)
Definition new (init : gmap string value → gmap string value → option (gmap string value))
    (options : gmap string value) : option (gmap string value) :=
  init options ∅.

(** Sphinx as it stands when it reads conf.py: both modules are imported,
    and PygmentsBridge (1) holds the formatter classes of the two output
    modes, LatexFormatter (2) and HtmlFormatter (3). *)
Definition sphinx_store : store :=
  Store {[ "__file__" := VStr "docs/conf.py" ]}
        {[ "sphinx.highlighting" := {[ "PygmentsBridge" := VRef 1%positive ]};
           "pygments.formatters.latex" := {[ "LatexFormatter" := VRef 2%positive ]} ]}
        {[ 1%positive := Object [] [] {[ "html_formatter" := VRef 3%positive;
                                         "latex_formatter" := VRef 2%positive ]};
           2%positive := Object [] [] ∅;
           3%positive := Object [] [] ∅ ]}.

(** What the claim of a load without side effects says of a store: when
    the load returns, the table of imported modules and every object that
    was on the heap are as they were. *)
Definition side_effect_free (s : store) : Prop :=
  ∀ s', load s = Some (tt, s') →
        modules s' = modules s ∧
        ∀ l o, heap s !! l = Some o → heap s' !! l = Some o.

(** A stand-in for the third-party initializer, after the one of pygments:
    it keeps the verboptions option, an empty string when absent, and
    records whether line numbers were asked for. *)
Definition sample_init (options self : gmap string value) : option (gmap string value) :=
  Some (<["verboptions" := default (VStr "") (options !! "verboptions")]>
          (<["linenos" := default (VInt 0) (options !! "linenos")]> self)).

Definition sample_options : gmap string value :=
  {[ "verboptions" := VStr "frame=single"; "linenos" := VInt 1 ]}.

(** The names the module body binds, in source order. *)
Definition bound_names : list string := [
  "project"; "copyright"; "author"; "version"; "release"; "master_doc";
  "extensions"; "templates_path"; "exclude_patterns"; "html_theme";
  "html_static_path"; "PygmentsBridge"; "LatexFormatter";
  "CustomLatexFormatter"; "man_pages"
].

(** The display of lines 84-150 for a table [l]: a list of five-element
    tuples, each reading the variable author for its fourth component. *)
Definition man_pages_display (l : list Conf.man_page) : M value :=
  list_lit ((λ e, man_page_entry (Conf.source e) (Conf.name e)
                                 (Conf.description e) (Conf.section e)) <$> l).

(** The tuple an entry evaluates to when author is bound to [a]. *)
Definition entry_value (a : value) (e : Conf.man_page) : value :=
  VTuple [VStr (Conf.source e); VStr (Conf.name e); VStr (Conf.description e);
          VList [a]; VInt (Conf.section e)].

(** The store Sphinx is left with once conf.py is read. *)
Definition sphinx_loaded : store :=
  Store (bind_all (bindings 1%positive 2%positive 4%positive) (globals sphinx_store))
        (modules sphinx_store)
        (<[1%positive := Object [] [] {[ "html_formatter" := VRef 3%positive;
                                         "latex_formatter" := VRef 4%positive ]}]>
           (<[4%positive := CustomLatexFormatter_class (VStr "builtins") 2%positive]>
              (<[2%positive := Object [] [4%positive] ∅]> (heap sphinx_store)))).

End Py.

(** ** Running the module body *)

Module PyFacts.
Import Py.

Lemma bind_run {A B} (m : M A) (k : A → M B) s a s' :
  m s = Some (a, s') → bind m k s = k a s'.
Proof. unfold bind. intros ->. reflexivity. Qed.

Lemma load_name_run x v s : globals s !! x = Some v → load_name x s = Some (v, s).
Proof. unfold load_name. intros ->. reflexivity. Qed.

Lemma eval_items_run es vs s :
  Forall2 (λ e v, e s = Some (v, s)) es vs → eval_items es s = Some (vs, s).
Proof.
  induction 1 as [|e v es vs He _ IH]; [reflexivity|].
  cbn [eval_items].
  rewrite (bind_run _ _ _ _ _ He), (bind_run _ _ _ _ _ IH). reflexivity.
Qed.

Lemma list_lit_run es vs s :
  Forall2 (λ e v, e s = Some (v, s)) es vs → list_lit es s = Some (VList vs, s).
Proof.
  intros H. unfold list_lit.
  rewrite (bind_run _ _ _ _ _ (eval_items_run _ _ _ H)). reflexivity.
Qed.

Lemma tuple_lit_run es vs s :
  Forall2 (λ e v, e s = Some (v, s)) es vs → tuple_lit es s = Some (VTuple vs, s).
Proof.
  intros H. unfold tuple_lit.
  rewrite (bind_run _ _ _ _ _ (eval_items_run _ _ _ H)). reflexivity.
Qed.

Lemma assign_run x e v s :
  e s = Some (v, s) →
  assign x e s = Some (tt, set_globals (<[x := v]> (globals s)) s).
Proof. intros He. unfold assign. rewrite (bind_run _ _ _ _ _ He). reflexivity. Qed.

Lemma import_from_run m x ns v s :
  modules s !! m = Some ns → ns !! x = Some v →
  import_from m x s = Some (tt, set_globals (<[x := v]> (globals s)) s).
Proof. unfold import_from. intros -> ->. reflexivity. Qed.

Lemma class_def_run x base body lb ob s :
  globals s !! base = Some (VRef lb) → heap s !! lb = Some ob →
  class_def x base body s =
    Some (tt, Store (<[x := VRef (fresh (dom (heap s)))]> (globals s)) (modules s)
                    (<[fresh (dom (heap s)) :=
                         Object [lb] [] (class_dict (module_name (globals s)) body)]>
                       (<[lb := register_subclass (fresh (dom (heap s))) ob]> (heap s)))).
Proof.
  intros Hb Hh. unfold class_def.
  rewrite (bind_run _ _ _ _ _ (load_name_run _ _ _ Hb)), Hh. reflexivity.
Qed.

Lemma store_attr_run target attr e v l o s :
  e s = Some (v, s) → globals s !! target = Some (VRef l) → heap s !! l = Some o →
  store_attr target attr e s =
    Some (tt, set_heap (<[l := set_attr attr v o]> (heap s)) s).
Proof.
  intros He Ht Hh. unfold store_attr.
  rewrite (bind_run _ _ _ _ _ He), (bind_run _ _ _ _ _ (load_name_run _ _ _ Ht)), Hh.
  reflexivity.
Qed.

Lemma man_page_entry_run doc name description section a s :
  globals s !! "author" = Some a →
  man_page_entry doc name description section s =
    Some (VTuple [VStr doc; VStr name; VStr description; VList [a]; VInt section], s).
Proof.
  intros Ha. unfold man_page_entry.
  apply tuple_lit_run.
  repeat (apply Forall2_cons_2; [try reflexivity|]); [|apply Forall2_nil_2].
  apply list_lit_run.
  apply Forall2_cons_2; [apply load_name_run, Ha | apply Forall2_nil_2].
Qed.

(** The identity given to a new object is not that of an object of the heap. *)
Lemma fresh_loc_ne (h : gmap loc object) l o : h !! l = Some o → fresh (dom h) ≠ l.
Proof.
  intros Hl Heq. apply (is_fresh (dom h)). rewrite Heq. apply elem_of_dom. eauto.
Qed.

(** An object of the heap, once a class [c] is registered with [lf]. *)
Lemma class_def_leaves pb lf c o olf (h : gmap loc object) :
  h !! pb = Some o → h !! lf = Some olf →
  <[lf := register_subclass c olf]> h !! pb =
    Some (if decide (pb = lf) then register_subclass c olf else o).
Proof.
  intros Hpb Hlf. destruct (decide (pb = lf)) as [->|Hne].
  - apply lookup_insert_eq.
  - rewrite lookup_insert_ne by congruence. exact Hpb.
Qed.

Ltac run_stmt tac :=
  erewrite bind_run; [|tac]; cbn [globals modules heap set_globals set_heap].

(** The load, run from a store in which the two imports resolve to classes
    of the heap: it returns, and this is the store it leaves. *)
Lemma load_run s ns1 ns2 pb lf o olf :
  modules s !! "sphinx.highlighting" = Some ns1 →
  ns1 !! "PygmentsBridge" = Some (VRef pb) →
  modules s !! "pygments.formatters.latex" = Some ns2 →
  ns2 !! "LatexFormatter" = Some (VRef lf) →
  heap s !! pb = Some o →
  heap s !! lf = Some olf →
  load s =
    Some (tt, Store (bind_all (bindings pb lf (fresh (dom (heap s)))) (globals s))
                    (modules s)
                    (loaded_heap (module_name (globals s)) pb lf (fresh (dom (heap s)))
                                 o olf (heap s))).
Proof.
  intros Hm1 Hn1 Hm2 Hn2 Hpb Hlf.
  pose proof (fresh_loc_ne _ _ _ Hpb) as Hne.
  unfold load.
  do 6 (run_stmt ltac:(apply assign_run; reflexivity)).
  do 3 (run_stmt ltac:(apply assign_run, list_lit_run;
                       repeat (apply Forall2_cons_2; [reflexivity|]); apply Forall2_nil_2)).
  run_stmt ltac:(apply assign_run; reflexivity).
  run_stmt ltac:(apply assign_run, list_lit_run;
                 repeat (apply Forall2_cons_2; [reflexivity|]); apply Forall2_nil_2).
  run_stmt ltac:(eapply import_from_run; [exact Hm1|exact Hn1]).
  run_stmt ltac:(eapply import_from_run; [exact Hm2|exact Hn2]).
  run_stmt ltac:(eapply class_def_run; [apply lookup_insert_eq|exact Hlf]).
  unfold module_name at 1. rewrite !lookup_insert_ne by done.
  fold (module_name (globals s)).
  run_stmt ltac:(eapply store_attr_run;
                 [apply load_name_run, lookup_insert_eq
                 |cbn [globals]; by simplify_map_eq
                 |cbn [heap]; rewrite lookup_insert_ne by exact Hne;
                  apply (class_def_leaves pb lf _ o olf (heap s) Hpb Hlf)]).
  erewrite assign_run.
  - reflexivity.
  - apply list_lit_run.
    repeat (apply Forall2_cons_2;
            [apply man_page_entry_run; cbn [globals set_heap]; by simplify_map_eq|]).
    apply Forall2_nil_2.
Qed.

(** *** What the load changes outside the module namespace *)

(** PygmentsBridge in the heap the load leaves: its attribute is rebound,
    its bases and its other attributes are those of before. *)
Lemma loaded_heap_pb m pb lf c o olf (h : gmap loc object) :
  h !! pb = Some o → h !! lf = Some olf →
  ∃ o', loaded_heap m pb lf c o olf h !! pb = Some o' ∧
        bases o' = bases o ∧
        attrs o' = <["latex_formatter" := VRef c]> (attrs o).
Proof.
  intros Hpb Hlf. unfold loaded_heap. eexists. split; [apply lookup_insert_eq|].
  destruct (decide (pb = lf)) as [->|Hne]; [|split; reflexivity].
  rewrite Hpb in Hlf. injection Hlf as <-. split; reflexivity.
Qed.

Lemma bindings_CustomLatexFormatter pb lf c (g : gmap string value) :
  bind_all (bindings pb lf c) g !! "CustomLatexFormatter" = Some (VRef c).
Proof.
  unfold bind_all, bindings. cbn [foldl fst snd].
  rewrite lookup_insert_ne by done. apply lookup_insert_eq.
Qed.

(** After the load, the module variables hold the values of [Conf]
    (compare [load_run], which gives the namespace as [bind_all]). *)
Lemma bindings_man_pages pb lf c (g : gmap string value) :
  bind_all (bindings pb lf c) g !! "man_pages" =
  Some (VList (of_man_page <$> Conf.man_pages)).
Proof. unfold bind_all, bindings. cbn [foldl fst snd]. apply lookup_insert_eq. Qed.

Example load_sphinx_store :
  ∃ s' o',
    load sphinx_store = Some (tt, s') ∧
    heap s' !! 1%positive = Some o' ∧
    attrs o' !! "latex_formatter" = Some (VRef 4%positive) ∧
    attrs o' !! "html_formatter" = Some (VRef 3%positive) ∧
    globals s' !! "CustomLatexFormatter" = Some (VRef 4%positive).
Proof.
  eexists _, _. split; [vm_compute; reflexivity|].
  repeat split; vm_compute; reflexivity.
Qed.

Lemma loaded_heap_new m pb lf c o olf (h : gmap loc object) :
  c ≠ pb → loaded_heap m pb lf c o olf h !! c = Some (CustomLatexFormatter_class m lf).
Proof.
  intros Hne. unfold loaded_heap.
  rewrite lookup_insert_ne by congruence. apply lookup_insert_eq.
Qed.

Lemma loaded_heap_lf m pb lf c o olf (h : gmap loc object) :
  c ≠ lf → is_Some (loaded_heap m pb lf c o olf h !! lf).
Proof.
  intros Hne. unfold loaded_heap. destruct (decide (pb = lf)) as [->|Hpl].
  - rewrite lookup_insert_eq. eauto.
  - rewrite !lookup_insert_ne by congruence. rewrite lookup_insert_eq. eauto.
Qed.

Lemma loaded_heap_frame m pb lf c o olf (h : gmap loc object) l :
  l ≠ pb → l ≠ lf → l ≠ c → loaded_heap m pb lf c o olf h !! l = h !! l.
Proof.
  intros H1 H2 H3. unfold loaded_heap.
  rewrite !lookup_insert_ne by congruence. reflexivity.
Qed.

(** C2, as stated, fails: run in Sphinx, the load rebinds the attribute
    latex_formatter of the imported class PygmentsBridge, so an object that
    was on the heap before the load is not as it was. *)
Lemma load_not_side_effect_free : ¬ side_effect_free sphinx_store.
Proof.
  intros Hfree.
  assert (Hrun : ∃ s', load sphinx_store = Some (tt, s') ∧
                       heap s' !! 1%positive ≠ heap sphinx_store !! 1%positive).
  { eexists. split; [vm_compute; reflexivity|]. vm_compute. discriminate. }
  destruct Hrun as (s' & Hload & Hdiff).
  destruct (Hfree s' Hload) as [_ Hheap].
  destruct (heap sphinx_store !! 1%positive) as [o|] eqn:Ho; [|discriminate].
  apply Hdiff. exact (Hheap _ _ Ho).
Qed.

(** C2, amended: from a store in which both modules are already imported
    and the two imported names are ordinary classes of the heap, the load
    returns and changes the state outside the module namespace in exactly
    two places. The class statement allocates the class
    CustomLatexFormatter at an identity [c] that was unused, binds the
    module variable of that name to it and adds it to the subclasses of
    LatexFormatter; line 77 sets the attribute latex_formatter of
    PygmentsBridge to that class. The table of imported modules, the bases
    and every other attribute of PygmentsBridge, the bases and, unless it
    is PygmentsBridge itself, the attributes of LatexFormatter, and every
    other object of the heap are as they were. *)
Theorem load_effects_outside_namespace s ns1 ns2 pb lf o olf :
  modules s !! "sphinx.highlighting" = Some ns1 →
  ns1 !! "PygmentsBridge" = Some (VRef pb) →
  modules s !! "pygments.formatters.latex" = Some ns2 →
  ns2 !! "LatexFormatter" = Some (VRef lf) →
  heap s !! pb = Some o →
  heap s !! lf = Some olf →
  ∃ s' c oc o' olf',
    load s = Some (tt, s') ∧
    modules s' = modules s ∧
    heap s !! c = None ∧
    globals s' !! "CustomLatexFormatter" = Some (VRef c) ∧
    heap s' !! c = Some oc ∧
    bases oc = [lf] ∧
    subclasses oc = [] ∧
    attrs oc !! "__init__" = Some (VFun "CustomLatexFormatter.__init__") ∧
    heap s' !! pb = Some o' ∧
    bases o' = bases o ∧
    attrs o' !! "latex_formatter" = Some (VRef c) ∧
    (∀ a, a ≠ "latex_formatter" → attrs o' !! a = attrs o !! a) ∧
    heap s' !! lf = Some olf' ∧
    bases olf' = bases olf ∧
    subclasses olf' = (subclasses olf ++ [c])%list ∧
    (pb ≠ lf → subclasses o' = subclasses o ∧ attrs olf' = attrs olf) ∧
    (∀ l, l ≠ pb → l ≠ lf → l ≠ c → heap s' !! l = heap s !! l).
Proof.
  intros Hm1 Hn1 Hm2 Hn2 Hpb Hlf.
  pose proof (fresh_loc_ne _ _ _ Hpb) as Hcpb.
  pose proof (fresh_loc_ne _ _ _ Hlf) as Hclf.
  pose proof (load_run s ns1 ns2 pb lf o olf Hm1 Hn1 Hm2 Hn2 Hpb Hlf) as Hrun.
  set (c := fresh (dom (heap s))) in *.
  assert (Hframe : ∀ l, l ≠ pb → l ≠ lf → l ≠ c →
            loaded_heap (module_name (globals s)) pb lf c o olf (heap s) !! l = heap s !! l).
  { intros l H1 H2 H3. unfold loaded_heap.
    rewrite !lookup_insert_ne by congruence. reflexivity. }
  assert (Hnew : loaded_heap (module_name (globals s)) pb lf c o olf (heap s) !! c =
                 Some (CustomLatexFormatter_class (module_name (globals s)) lf)).
  { unfold loaded_heap. rewrite lookup_insert_ne by congruence. apply lookup_insert_eq. }
  assert (Hinit : attrs (CustomLatexFormatter_class (module_name (globals s)) lf) !! "__init__"
                  = Some (VFun "CustomLatexFormatter.__init__")).
  { cbn [attrs CustomLatexFormatter_class]. unfold class_dict.
    apply lookup_union_Some_l, lookup_singleton_eq. }
  assert (Hfresh : heap s !! c = None) by apply not_elem_of_dom, is_fresh.
  assert (Hattr : ∀ (ob : object) a, a ≠ "latex_formatter" →
            attrs (set_attr "latex_formatter" (VRef c) ob) !! a = attrs ob !! a).
  { intros ob a Ha. cbn [attrs set_attr]. apply lookup_insert_ne. congruence. }
  destruct (decide (pb = lf)) as [Heq|Hneq].
  - subst lf. rewrite Hpb in Hlf. injection Hlf as <-.
    eexists _, c, _, (set_attr "latex_formatter" (VRef c) (register_subclass c o)), _.
    split; [exact Hrun|]. cbn [globals modules heap].
    split; [reflexivity|]. split; [exact Hfresh|].
    split; [apply bindings_CustomLatexFormatter|].
    split; [exact Hnew|]. split; [reflexivity|]. split; [reflexivity|].
    split; [exact Hinit|].
    assert (Hl : loaded_heap (module_name (globals s)) pb pb c o o (heap s) !! pb =
                 Some (set_attr "latex_formatter" (VRef c) (register_subclass c o))).
    { unfold loaded_heap. rewrite decide_True by reflexivity. apply lookup_insert_eq. }
    split; [exact Hl|]. split; [reflexivity|].
    split; [apply lookup_insert_eq|].
    split; [intros a Ha; exact (Hattr _ a Ha)|].
    split; [exact Hl|]. split; [reflexivity|]. split; [reflexivity|].
    split; [intros Hne; destruct Hne; reflexivity|].
    exact Hframe.
  - eexists _, c, _, (set_attr "latex_formatter" (VRef c) o), (register_subclass c olf).
    split; [exact Hrun|]. cbn [globals modules heap].
    split; [reflexivity|]. split; [exact Hfresh|].
    split; [apply bindings_CustomLatexFormatter|].
    split; [exact Hnew|]. split; [reflexivity|]. split; [reflexivity|].
    split; [exact Hinit|].
    split.
    { unfold loaded_heap. rewrite decide_False by exact Hneq. apply lookup_insert_eq. }
    split; [reflexivity|].
    split; [apply lookup_insert_eq|].
    split; [intros a Ha; exact (Hattr _ a Ha)|].
    split.
    { unfold loaded_heap. rewrite !lookup_insert_ne by congruence. apply lookup_insert_eq. }
    split; [reflexivity|]. split; [reflexivity|].
    split; [intros _; split; reflexivity|].
    exact Hframe.
Qed.

Lemma load_effects_outside_namespace_witness :
  ∃ s' c oc o' olf',
    load sphinx_store = Some (tt, s') ∧
    modules s' = modules sphinx_store ∧
    heap sphinx_store !! c = None ∧
    globals s' !! "CustomLatexFormatter" = Some (VRef c) ∧
    heap s' !! c = Some oc ∧
    bases oc = [2%positive] ∧
    subclasses oc = [] ∧
    attrs oc !! "__init__" = Some (VFun "CustomLatexFormatter.__init__") ∧
    heap s' !! 1%positive = Some o' ∧
    bases o' = [] ∧
    attrs o' !! "latex_formatter" = Some (VRef c) ∧
    (∀ a, a ≠ "latex_formatter" →
          attrs o' !! a =
          ({[ "html_formatter" := VRef 3%positive;
              "latex_formatter" := VRef 2%positive ]} : gmap string value) !! a) ∧
    heap s' !! 2%positive = Some olf' ∧
    bases olf' = [] ∧
    subclasses olf' = ([] ++ [c])%list ∧
    (1%positive ≠ 2%positive → subclasses o' = [] ∧ attrs olf' = ∅) ∧
    (∀ l, l ≠ 1%positive → l ≠ 2%positive → l ≠ c → heap s' !! l = heap sphinx_store !! l).
Proof.
  refine (load_effects_outside_namespace sphinx_store
           {[ "PygmentsBridge" := VRef 1%positive ]}
           {[ "LatexFormatter" := VRef 2%positive ]}
           1%positive 2%positive
           (Object [] [] {[ "html_formatter" := VRef 3%positive;
                            "latex_formatter" := VRef 2%positive ]})
           (Object [] [] ∅) _ _ _ _ _ _); reflexivity.
Defined.

(** *** The formatter subclass *)

Lemma new_custom (init : gmap string value → gmap string value → option (gmap string value))
    (options : gmap string value) :
  new (CustomLatexFormatter_init init) options =
  (<["verboptions" := VStr "formatcom=\scriptsize"]>) <$> new init options.
Proof. unfold new, CustomLatexFormatter_init. destruct (init options ∅); reflexivity. Qed.

(** C5: for any constructor options from which the base LatexFormatter
    builds an instance, CustomLatexFormatter builds one too; its attribute
    verboptions is "formatcom=\scriptsize" and every other instance
    attribute is the one of the base instance. The class is installed as
    the formatter of the LaTeX output only: the load leaves every attribute
    of PygmentsBridge other than latex_formatter, html_formatter among
    them, as it was. *)
Theorem custom_formatter_overrides_verboptions_only
    (init : gmap string value → gmap string value → option (gmap string value))
    (options base : gmap string value) s ns1 ns2 pb lf o olf :
  new init options = Some base →
  modules s !! "sphinx.highlighting" = Some ns1 →
  ns1 !! "PygmentsBridge" = Some (VRef pb) →
  modules s !! "pygments.formatters.latex" = Some ns2 →
  ns2 !! "LatexFormatter" = Some (VRef lf) →
  heap s !! pb = Some o →
  heap s !! lf = Some olf →
  (∃ custom,
      new (CustomLatexFormatter_init init) options = Some custom ∧
      custom !! "verboptions" = Some (VStr "formatcom=\scriptsize") ∧
      ∀ a, a ≠ "verboptions" → custom !! a = base !! a) ∧
  (∃ s' o',
      load s = Some (tt, s') ∧
      heap s' !! pb = Some o' ∧
      ∀ a, a ≠ "latex_formatter" → attrs o' !! a = attrs o !! a).
Proof.
  intros Hbase Hm1 Hn1 Hm2 Hn2 Hpb Hlf. split.
  - eexists. rewrite new_custom, Hbase. split; [reflexivity|].
    split; [apply lookup_insert_eq|].
    intros a Ha. apply lookup_insert_ne. intros Heq. apply Ha. symmetry. exact Heq.
  - destruct (loaded_heap_pb (module_name (globals s)) pb lf (fresh (dom (heap s)))
                o olf (heap s) Hpb Hlf) as (o' & Ho' & _ & Hattrs).
    exists (Store (bind_all (bindings pb lf (fresh (dom (heap s)))) (globals s))
                  (modules s)
                  (loaded_heap (module_name (globals s)) pb lf (fresh (dom (heap s)))
                               o olf (heap s))), o'.
    split; [exact (load_run s ns1 ns2 pb lf o olf Hm1 Hn1 Hm2 Hn2 Hpb Hlf)|].
    cbn [heap]. split; [exact Ho'|].
    rewrite Hattrs. intros a Ha. apply lookup_insert_ne.
    intros Heq. apply Ha. symmetry. exact Heq.
Qed.

Lemma custom_formatter_overrides_verboptions_only_witness :
  (∃ custom,
      new (CustomLatexFormatter_init sample_init) sample_options = Some custom ∧
      custom !! "verboptions" = Some (VStr "formatcom=\scriptsize") ∧
      ∀ a, a ≠ "verboptions" →
           custom !! a =
           ({[ "verboptions" := VStr "frame=single"; "linenos" := VInt 1 ]}
              : gmap string value) !! a) ∧
  (∃ s' o',
      load sphinx_store = Some (tt, s') ∧
      heap s' !! 1%positive = Some o' ∧
      ∀ a, a ≠ "latex_formatter" →
           attrs o' !! a =
           ({[ "html_formatter" := VRef 3%positive;
               "latex_formatter" := VRef 2%positive ]} : gmap string value) !! a).
Proof.
  refine (custom_formatter_overrides_verboptions_only sample_init sample_options
           {[ "verboptions" := VStr "frame=single"; "linenos" := VInt 1 ]}
           sphinx_store
           {[ "PygmentsBridge" := VRef 1%positive ]}
           {[ "LatexFormatter" := VRef 2%positive ]}
           1%positive 2%positive
           (Object [] [] {[ "html_formatter" := VRef 3%positive;
                            "latex_formatter" := VRef 2%positive ]})
           (Object [] [] ∅) _ _ _ _ _ _ _); reflexivity.
Defined.

End PyFacts.

(** ** Further properties of the run *)

Module PyMore.
Import Py PyFacts.

Lemma bindings_names pb lf c : (bindings pb lf c).*1 = bound_names.
Proof. reflexivity. Qed.

Lemma bind_all_lookup_notin (bs : list (string * value)) (g : gmap string value) x :
  x ∉ bs.*1 → bind_all bs g !! x = g !! x.
Proof.
  unfold bind_all. revert g.
  induction bs as [|[y w] bs IH]; intros g Hx; [reflexivity|].
  rewrite fmap_cons, not_elem_of_cons in Hx. destruct Hx as [Hxy Hx].
  cbn [foldl fst snd]. rewrite (IH _ Hx).
  apply lookup_insert_ne. intros Heq. apply Hxy. symmetry. exact Heq.
Qed.

Lemma bind_all_lookup_in (bs : list (string * value)) (g : gmap string value) x v :
  NoDup bs.*1 → (x, v) ∈ bs → bind_all bs g !! x = Some v.
Proof.
  unfold bind_all. revert g.
  induction bs as [|[y w] bs IH]; intros g Hnd Hin.
  - apply elem_of_nil in Hin. destruct Hin.
  - rewrite fmap_cons in Hnd. apply NoDup_cons in Hnd as [Hy Hnd].
    cbn [foldl fst snd].
    apply elem_of_cons in Hin as [Heq|Hin].
    + injection Heq as -> ->.
      pose proof (bind_all_lookup_notin bs (<[y := w]> g) y Hy) as Hl.
      unfold bind_all in Hl. rewrite Hl. apply lookup_insert_eq.
    + apply IH; assumption.
Qed.

Lemma bound_names_NoDup : NoDup bound_names.
Proof. apply (bool_decide_unpack _). vm_compute. exact I. Qed.

(** X1: from a store in which the imports resolve, the load binds the
    fifteen names of [bound_names], each to the value the source gives it,
    whatever the name was bound to before; every other name of the
    namespace keeps its binding. *)
Theorem load_namespace_frame s ns1 ns2 pb lf o olf :
  modules s !! "sphinx.highlighting" = Some ns1 →
  ns1 !! "PygmentsBridge" = Some (VRef pb) →
  modules s !! "pygments.formatters.latex" = Some ns2 →
  ns2 !! "LatexFormatter" = Some (VRef lf) →
  heap s !! pb = Some o →
  heap s !! lf = Some olf →
  ∃ s',
    load s = Some (tt, s') ∧
    (∀ x v, (x, v) ∈ bindings pb lf (fresh (dom (heap s))) → globals s' !! x = Some v) ∧
    (∀ x, x ∉ bound_names → globals s' !! x = globals s !! x).
Proof.
  intros Hm1 Hn1 Hm2 Hn2 Hpb Hlf.
  eexists. split; [exact (load_run s ns1 ns2 pb lf o olf Hm1 Hn1 Hm2 Hn2 Hpb Hlf)|].
  cbn [globals]. split.
  - intros x v Hin. apply bind_all_lookup_in; [|exact Hin].
    rewrite bindings_names. apply bound_names_NoDup.
  - intros x Hx. apply bind_all_lookup_notin.
    rewrite bindings_names. exact Hx.
Qed.

Lemma load_namespace_frame_witness :
  ∃ s',
    load sphinx_store = Some (tt, s') ∧
    (∀ x v, (x, v) ∈ bindings 1%positive 2%positive (fresh (dom (heap sphinx_store))) →
            globals s' !! x = Some v) ∧
    (∀ x, x ∉ bound_names → globals s' !! x = globals sphinx_store !! x).
Proof.
  refine (load_namespace_frame sphinx_store
            {[ "PygmentsBridge" := VRef 1%positive ]}
            {[ "LatexFormatter" := VRef 2%positive ]}
            1%positive 2%positive
            (Object [] [] {[ "html_formatter" := VRef 3%positive;
                             "latex_formatter" := VRef 2%positive ]})
            (Object [] [] ∅) _ _ _ _ _ _); reflexivity.
Defined.

(** *** Loading a second time *)

(** X2: the load can be run again on the store it leaves. The second run
    allocates a second class CustomLatexFormatter, distinct from the first
    and, like it, derived from LatexFormatter itself (the subclasses do not
    stack); PygmentsBridge.latex_formatter and the module variable refer to
    the second class, the first stays on the heap; every other attribute of
    PygmentsBridge and every other name of the namespace are as after the
    first run. *)
Theorem load_twice s ns1 ns2 pb lf o olf :
  modules s !! "sphinx.highlighting" = Some ns1 →
  ns1 !! "PygmentsBridge" = Some (VRef pb) →
  modules s !! "pygments.formatters.latex" = Some ns2 →
  ns2 !! "LatexFormatter" = Some (VRef lf) →
  heap s !! pb = Some o →
  heap s !! lf = Some olf →
  ∃ s1 s2 c1 c2 o2,
    load s = Some (tt, s1) ∧
    load s1 = Some (tt, s2) ∧
    c1 ≠ c2 ∧
    globals s1 !! "CustomLatexFormatter" = Some (VRef c1) ∧
    globals s2 !! "CustomLatexFormatter" = Some (VRef c2) ∧
    heap s2 !! c1 = Some (CustomLatexFormatter_class (module_name (globals s)) lf) ∧
    heap s2 !! c2 = Some (CustomLatexFormatter_class (module_name (globals s)) lf) ∧
    heap s2 !! pb = Some o2 ∧
    attrs o2 !! "latex_formatter" = Some (VRef c2) ∧
    (∀ a, a ≠ "latex_formatter" → attrs o2 !! a = attrs o !! a) ∧
    (∀ x, x ≠ "CustomLatexFormatter" → globals s2 !! x = globals s1 !! x).
Proof.
  intros Hm1 Hn1 Hm2 Hn2 Hpb Hlf.
  pose proof (load_run s ns1 ns2 pb lf o olf Hm1 Hn1 Hm2 Hn2 Hpb Hlf) as Hrun1.
  set (m := module_name (globals s)) in *.
  set (c1 := fresh (dom (heap s))) in *.
  set (h1 := loaded_heap m pb lf c1 o olf (heap s)) in *.
  set (g1 := bind_all (bindings pb lf c1) (globals s)) in *.
  assert (Hc1pb : c1 ≠ pb) by exact (fresh_loc_ne _ _ _ Hpb).
  assert (Hc1lf : c1 ≠ lf) by exact (fresh_loc_ne _ _ _ Hlf).
  destruct (loaded_heap_pb m pb lf c1 o olf (heap s) Hpb Hlf) as (o1 & Hpb1 & _ & Hattrs1).
  destruct (loaded_heap_lf m pb lf c1 o olf (heap s) Hc1lf) as [olf1 Hlf1].
  pose proof (loaded_heap_new m pb lf c1 o olf (heap s) Hc1pb) as Hc1.
  fold h1 in Hpb1, Hlf1, Hc1.
  pose proof (load_run (Store g1 (modules s) h1) ns1 ns2 pb lf o1 olf1
                Hm1 Hn1 Hm2 Hn2 Hpb1 Hlf1) as Hrun2.
  cbn [globals modules heap] in Hrun2.
  assert (Hm : module_name g1 = m).
  { unfold module_name, g1. rewrite bind_all_lookup_notin; [reflexivity|].
    rewrite bindings_names. apply (bool_decide_unpack _). vm_compute. exact I. }
  rewrite Hm in Hrun2.
  set (c2 := fresh (dom h1)) in *.
  assert (Hc2c1 : c2 ≠ c1) by exact (fresh_loc_ne _ _ _ Hc1).
  assert (Hc2pb : c2 ≠ pb) by exact (fresh_loc_ne _ _ _ Hpb1).
  assert (Hc2lf : c2 ≠ lf) by exact (fresh_loc_ne _ _ _ Hlf1).
  destruct (loaded_heap_pb m pb lf c2 o1 olf1 h1 Hpb1 Hlf1) as (o2 & Hpb2 & _ & Hattrs2).
  eexists _, _, c1, c2, o2.
  split; [exact Hrun1|]. split; [exact Hrun2|].
  split; [congruence|].
  split; [apply bindings_CustomLatexFormatter|].
  split; [apply bindings_CustomLatexFormatter|].
  cbn [heap globals].
  split; [rewrite loaded_heap_frame by congruence; exact Hc1|].
  split; [apply loaded_heap_new; exact Hc2pb|].
  split; [exact Hpb2|].
  rewrite Hattrs2, Hattrs1.
  split; [apply lookup_insert_eq|].
  split.
  - intros a Ha. rewrite !lookup_insert_ne by congruence. reflexivity.
  - intros x Hx.
    destruct (decide (x ∈ bound_names)) as [Hin|Hnotin].
    + unfold bound_names in Hin.
      repeat (apply elem_of_cons in Hin as [->|Hin]); try (by apply elem_of_nil in Hin);
        try done; (etrans; [|symmetry]);
        (apply bind_all_lookup_in;
         [rewrite bindings_names; apply bound_names_NoDup
         |unfold bindings; rewrite !elem_of_cons; tauto]).
    + unfold g1.
      rewrite !bind_all_lookup_notin by (rewrite bindings_names; exact Hnotin).
      reflexivity.
Qed.

Lemma load_twice_witness :
  ∃ s1 s2 c1 c2 o2,
    load sphinx_store = Some (tt, s1) ∧
    load s1 = Some (tt, s2) ∧
    c1 ≠ c2 ∧
    globals s1 !! "CustomLatexFormatter" = Some (VRef c1) ∧
    globals s2 !! "CustomLatexFormatter" = Some (VRef c2) ∧
    heap s2 !! c1 = Some (CustomLatexFormatter_class (VStr "builtins") 2%positive) ∧
    heap s2 !! c2 = Some (CustomLatexFormatter_class (VStr "builtins") 2%positive) ∧
    heap s2 !! 1%positive = Some o2 ∧
    attrs o2 !! "latex_formatter" = Some (VRef c2) ∧
    (∀ a, a ≠ "latex_formatter" →
          attrs o2 !! a =
          ({[ "html_formatter" := VRef 3%positive;
              "latex_formatter" := VRef 2%positive ]} : gmap string value) !! a) ∧
    (∀ x, x ≠ "CustomLatexFormatter" → globals s2 !! x = globals s1 !! x).
Proof.
  refine (load_twice sphinx_store
            {[ "PygmentsBridge" := VRef 1%positive ]}
            {[ "LatexFormatter" := VRef 2%positive ]}
            1%positive 2%positive
            (Object [] [] {[ "html_formatter" := VRef 3%positive;
                             "latex_formatter" := VRef 2%positive ]})
            (Object [] [] ∅) _ _ _ _ _ _); reflexivity.
Defined.

(** *** The store Sphinx is left with *)

Example load_sphinx_loaded : load sphinx_store = Some (tt, sphinx_loaded).
Proof. vm_compute. reflexivity. Qed.

Example load_registers_subclass :
  subclasses <$> heap sphinx_store !! 2%positive = Some [] ∧
  subclasses <$> heap sphinx_loaded !! 2%positive = Some [4%positive].
Proof. split; reflexivity. Qed.

(** *** The table display and the variable author *)

Lemma man_pages_display_conf :
  man_pages_display Conf.man_pages = list_lit [
    man_page_entry "ref/pgcopydb" "pgcopydb" "pgcopydb" 1;
    man_page_entry "ref/pgcopydb_config" "pgcopydb" "pgcopydb" 5;
    man_page_entry "ref/pgcopydb_clone" "pgcopydb clone" "pgcopydb clone" 1;
    man_page_entry "ref/pgcopydb_clone" "pgcopydb fork" "pgcopydb fork" 1;
    man_page_entry "ref/pgcopydb_follow" "pgcopydb follow" "pgcopydb follow" 1;
    man_page_entry "ref/pgcopydb_snapshot" "pgcopydb snapshot" "pgcopydb snapshot" 1;
    man_page_entry "ref/pgcopydb_copy" "pgcopydb copy" "pgcopydb copy" 1;
    man_page_entry "ref/pgcopydb_dump" "pgcopydb dump" "pgcopydb dump" 1;
    man_page_entry "ref/pgcopydb_restore" "pgcopydb restore" "pgcopydb restore" 1;
    man_page_entry "ref/pgcopydb_list" "pgcopydb list" "pgcopydb list" 1;
    man_page_entry "ref/pgcopydb_stream" "pgcopydb stream" "pgcopydb stream" 1
  ].
Proof. reflexivity. Qed.

Lemma man_page_entry_unbound doc name description section s :
  globals s !! "author" = None →
  man_page_entry doc name description section s = None.
Proof.
  intros Ha.
  unfold man_page_entry, tuple_lit, list_lit. cbn [eval_items].
  unfold bind, str, int, ret, load_name. rewrite Ha. reflexivity.
Qed.

(** X6: the display that builds man_pages reads the variable author at the
    time it is evaluated and changes nothing. Where author is bound to [a],
    it yields the list of the entries' tuples, each with [[a]] as its
    author list, in the order of the table, and the store is as it was;
    where author is unbound and the table is not empty, it raises. *)
Theorem man_pages_display_reads_author (l : list Conf.man_page) s :
  (∀ a, globals s !! "author" = Some a →
        man_pages_display l s = Some (VList (entry_value a <$> l), s)) ∧
  (globals s !! "author" = None → l ≠ [] → man_pages_display l s = None).
Proof.
  split.
  - intros a Ha. unfold man_pages_display. apply list_lit_run.
    induction l as [|e l IH]; [apply Forall2_nil_2|].
    rewrite !fmap_cons. apply Forall2_cons_2; [|exact IH].
    apply man_page_entry_run, Ha.
  - intros Ha Hl. destruct l as [|e l]; [done|].
    unfold man_pages_display, list_lit. rewrite fmap_cons. cbn [eval_items].
    unfold bind at 1 2. rewrite man_page_entry_unbound by exact Ha. reflexivity.
Qed.

Lemma man_pages_display_reads_author_witness :
  globals sphinx_loaded !! "author" = Some (VStr "Dimitri Fontaine") ∧
  man_pages_display Conf.man_pages sphinx_loaded =
    Some (VList (entry_value (VStr "Dimitri Fontaine") <$> Conf.man_pages), sphinx_loaded).
Proof.
  assert (Ha : globals sphinx_loaded !! "author" = Some (VStr "Dimitri Fontaine"))
    by reflexivity.
  split; [exact Ha|].
  exact (proj1 (man_pages_display_reads_author Conf.man_pages sphinx_loaded) _ Ha).
Defined.

End PyMore.

(** ** Properties of the tables *)

Module ConfFacts.
Import Conf.

Example parse_wildcards_and_class :
  Glob.parse "*.py[!co]?" =
  Some [Glob.AnySeq; Glob.Lit "."; Glob.Lit "p"; Glob.Lit "y";
        Glob.Class true ["c"; "o"]%char; Glob.AnyChar].
Proof. reflexivity. Qed.

Example parse_bracket_member : Glob.parse "[]]" = Some [Glob.Class false ["]"%char]].
Proof. reflexivity. Qed.

Example parse_unclosed_class : Glob.parse "[_build" = None.
Proof. reflexivity. Qed.

Lemma man_pages_sections :
  Forall (λ e, section e = 1 ∨ section e = 5) man_pages.
Proof.
  unfold man_pages.
  repeat (apply Forall_cons_2; [cbn; auto|]).
  apply Forall_nil_2.
Qed.

Lemma man_pages_keys_NoDup : NoDup (page_key <$> man_pages).
Proof. apply (bool_decide_unpack _). vm_compute. exact I. Qed.

(** C1: every entry of man_pages has section 1 or 5, and two entries at
    distinct positions that have the same section differ in their
    (source document, command name) pair. *)
Theorem man_pages_section_and_unique :
  (∀ e, e ∈ man_pages → section e = 1 ∨ section e = 5) ∧
  (∀ (i j : nat) (e1 e2 : man_page),
      i ≠ j →
      man_pages !! i = Some e1 →
      man_pages !! j = Some e2 →
      section e1 = section e2 →
      (source e1, name e1) ≠ (source e2, name e2)).
Proof.
  split.
  - intros e He. exact (proj1 (Forall_forall _ _) man_pages_sections e He).
  - intros i j e1 e2 Hij H1 H2 Hsec Hpair.
    apply Hij.
    apply (NoDup_lookup (page_key <$> man_pages) i j (page_key e1)).
    + apply man_pages_keys_NoDup.
    + rewrite list_lookup_fmap, H1. reflexivity.
    + rewrite list_lookup_fmap, H2. cbn. unfold page_key.
      rewrite Hsec, Hpair. reflexivity.
Qed.

Lemma man_pages_section_and_unique_witness :
  (2 ≠ 3)%nat ∧
  man_pages !! 2%nat = Some (ManPage "ref/pgcopydb_clone" "pgcopydb clone" "pgcopydb clone" [author] 1) ∧
  man_pages !! 3%nat = Some (ManPage "ref/pgcopydb_clone" "pgcopydb fork" "pgcopydb fork" [author] 1) ∧
  ("ref/pgcopydb_clone", "pgcopydb clone") ≠ ("ref/pgcopydb_clone", "pgcopydb fork").
Proof.
  split; [lia|]. split; [reflexivity|]. split; [reflexivity|].
  apply (proj2 man_pages_section_and_unique 2%nat 3%nat
           (ManPage "ref/pgcopydb_clone" "pgcopydb clone" "pgcopydb clone" [author] 1)
           (ManPage "ref/pgcopydb_clone" "pgcopydb fork" "pgcopydb fork" [author] 1));
    [lia | reflexivity | reflexivity | reflexivity].
Defined.

(** C4: project, author, version and release are non-empty strings, and
    version and release are the same string. *)
Theorem metadata_nonempty_and_consistent :
  project ≠ "" ∧ author ≠ "" ∧ version ≠ "" ∧ release ≠ "" ∧ version = release.
Proof. unfold project, author, version, release. repeat split; discriminate. Qed.

(** C7: the list of enabled Sphinx extensions is empty. *)
Theorem extensions_empty : extensions = [].
Proof. reflexivity. Qed.

(** C8: in every entry of man_pages the description is the command name. *)
Theorem man_pages_description_is_name :
  ∀ e, e ∈ man_pages → description e = name e.
Proof.
  assert (H : Forall (λ e, description e = name e) man_pages)
    by (unfold man_pages; repeat constructor).
  intros e He. exact (proj1 (Forall_forall _ _) H e He).
Qed.

Lemma man_pages_description_is_name_witness :
  ManPage "ref/pgcopydb_config" "pgcopydb" "pgcopydb" [author] 5 ∈ man_pages ∧
  description (ManPage "ref/pgcopydb_config" "pgcopydb" "pgcopydb" [author] 5) = "pgcopydb".
Proof.
  assert (Hin : ManPage "ref/pgcopydb_config" "pgcopydb" "pgcopydb" [author] 5 ∈ man_pages)
    by (unfold man_pages; apply list_elem_of_further, list_elem_of_here).
  split; [exact Hin|].
  exact (man_pages_description_is_name _ Hin).
Defined.

(** C9: in every entry of man_pages the author list is the one-element
    list holding the module-level author string, 'Dimitri Fontaine'. *)
Theorem man_pages_authors :
  author = "Dimitri Fontaine" ∧
  ∀ e, e ∈ man_pages → authors e = [author].
Proof.
  split; [reflexivity|].
  assert (H : Forall (λ e, authors e = [author]) man_pages)
    by (unfold man_pages; repeat constructor).
  intros e He. exact (proj1 (Forall_forall _ _) H e He).
Qed.

Lemma man_pages_authors_witness :
  ManPage "ref/pgcopydb" "pgcopydb" "pgcopydb" [author] 1 ∈ man_pages ∧
  authors (ManPage "ref/pgcopydb" "pgcopydb" "pgcopydb" [author] 1) = ["Dimitri Fontaine"].
Proof.
  assert (Hin : ManPage "ref/pgcopydb" "pgcopydb" "pgcopydb" [author] 1 ∈ man_pages)
    by (unfold man_pages; apply list_elem_of_here).
  split; [exact Hin|].
  exact (proj2 man_pages_authors _ Hin).
Defined.

(** A pattern without [*], [?] and [[] is read as itself, character by
    character. *)
Lemma parse_plain (s : string) :
  forallb (λ c, negb (Glob.special c)) (Glob.chars s) = true →
  Glob.parse s = Some (Glob.Lit <$> Glob.chars s).
Proof.
  unfold Glob.parse.
  induction s as [|c r IH]; cbn; [reflexivity|].
  intros H. apply andb_prop in H as [Hc Hr].
  unfold Glob.special in Hc.
  apply negb_true_iff, orb_false_iff in Hc as [Hc H3].
  apply orb_false_iff in Hc as [H1 H2].
  apply bool_decide_eq_false in H1, H2, H3.
  repeat (case_decide; [contradiction|]).
  rewrite (IH Hr). reflexivity.
Qed.

(** C6: exclude_patterns holds no entry twice, and each entry is a
    syntactically valid glob pattern (here: a pattern made of plain
    characters only, which the grammar reads as itself). *)
Theorem exclude_patterns_distinct_and_valid :
  NoDup exclude_patterns ∧
  Forall Glob.valid_glob exclude_patterns ∧
  Forall (λ p, Glob.parse p = Some (Glob.Lit <$> Glob.chars p)) exclude_patterns.
Proof.
  assert (Hplain : Forall (λ p, Glob.parse p = Some (Glob.Lit <$> Glob.chars p))
                     exclude_patterns).
  { unfold exclude_patterns.
    repeat (apply Forall_cons_2; [apply parse_plain; reflexivity|]).
    apply Forall_nil_2. }
  split; [|split; [|exact Hplain]].
  - apply (bool_decide_unpack _). vm_compute. exact I.
  - eapply Forall_impl; [exact Hplain|].
    intros p Hp. unfold Glob.valid_glob. rewrite Hp. eauto.
Qed.

Lemma pages_of_nonempty (doc : string) (l : list man_page) :
  pages_of doc l ≠ [] → doc ∈ source <$> l.
Proof.
  unfold pages_of.
  induction l as [|e l IH]; [done|].
  rewrite fmap_cons. intros Hne.
  destruct (decide (source e = doc)) as [<-|Hdoc].
  - apply list_elem_of_here.
  - apply list_elem_of_further, IH.
    rewrite filter_cons_False in Hne by done. exact Hne.
Qed.

Lemma man_pages_other_documents :
  Forall (λ doc, doc ≠ "ref/pgcopydb_clone" → length (pages_of doc man_pages) = 1%nat)
         (source <$> man_pages).
Proof.
  unfold man_pages. cbn [fmap list_fmap source].
  repeat (apply Forall_cons_2; [intros Hne; first [reflexivity | by destruct Hne]|]).
  apply Forall_nil_2.
Qed.

(** C10: the source document "ref/pgcopydb_clone" is the only one that
    appears in more than one entry of man_pages: it appears in exactly two
    (the pages "pgcopydb clone" and "pgcopydb fork"), and every other
    source document of the table appears in exactly one. *)
Theorem clone_document_shared :
  name <$> pages_of "ref/pgcopydb_clone" man_pages = ["pgcopydb clone"; "pgcopydb fork"] ∧
  (∀ doc, doc ∈ source <$> man_pages → doc ≠ "ref/pgcopydb_clone" →
          length (pages_of doc man_pages) = 1%nat) ∧
  (∀ doc, (1 < length (pages_of doc man_pages))%nat ↔ doc = "ref/pgcopydb_clone") ∧
  ¬ NoDup (source <$> man_pages).
Proof.
  assert (Hother : ∀ doc, doc ∈ source <$> man_pages → doc ≠ "ref/pgcopydb_clone" →
                          length (pages_of doc man_pages) = 1%nat).
  { intros doc Hin. exact (proj1 (Forall_forall _ _) man_pages_other_documents doc Hin). }
  split; [reflexivity|]. split; [exact Hother|]. split.
  - intros doc. split.
    + intros Hlen.
      destruct (decide (doc = "ref/pgcopydb_clone")) as [|Hne]; [done|].
      assert (Hin : doc ∈ source <$> man_pages).
      { apply pages_of_nonempty. intros Hnil. rewrite Hnil in Hlen. cbn in Hlen. lia. }
      specialize (Hother doc Hin Hne). lia.
    + intros ->. vm_compute. lia.
  - intros Hnd.
    assert (H23 : 2%nat = 3%nat); [|discriminate].
    apply (NoDup_lookup _ 2%nat 3%nat "ref/pgcopydb_clone" Hnd); reflexivity.
Qed.

Lemma clone_document_shared_witness :
  "ref/pgcopydb_dump" ∈ source <$> man_pages ∧
  "ref/pgcopydb_dump" ≠ "ref/pgcopydb_clone" ∧
  length (pages_of "ref/pgcopydb_dump" man_pages) = 1%nat.
Proof.
  assert (Hin : "ref/pgcopydb_dump" ∈ source <$> man_pages).
  { apply list_elem_of_lookup. exists 7%nat. reflexivity. }
  assert (Hne : "ref/pgcopydb_dump" ≠ "ref/pgcopydb_clone") by discriminate.
  split; [exact Hin|]. split; [exact Hne|].
  exact (proj1 (proj2 clone_document_shared) _ Hin Hne).
Defined.

(** X5: one entry per manual page. A page is named by its command name and
    its section, and no two entries at distinct positions of man_pages
    have both the same name and the same section, so no entry's page
    replaces another's, although two entries share a source document and
    two share a name. *)
Theorem man_pages_one_page_each :
  ∀ (i j : nat) (e1 e2 : man_page),
    i ≠ j →
    man_pages !! i = Some e1 →
    man_pages !! j = Some e2 →
    (name e1, section e1) ≠ (name e2, section e2).
Proof.
  intros i j e1 e2 Hij H1 H2 Heq. apply Hij.
  assert (Hnd : NoDup ((λ e, (name e, section e)) <$> man_pages))
    by (apply (bool_decide_unpack _); vm_compute; exact I).
  apply (NoDup_lookup _ i j (name e1, section e1) Hnd).
  - rewrite list_lookup_fmap, H1. reflexivity.
  - rewrite list_lookup_fmap, H2. cbn. rewrite Heq. reflexivity.
Qed.

Lemma man_pages_one_page_each_witness :
  (0 ≠ 1)%nat ∧
  man_pages !! 0%nat = Some (ManPage "ref/pgcopydb" "pgcopydb" "pgcopydb" [author] 1) ∧
  man_pages !! 1%nat = Some (ManPage "ref/pgcopydb_config" "pgcopydb" "pgcopydb" [author] 5) ∧
  ("pgcopydb", 1) ≠ ("pgcopydb", 5).
Proof.
  split; [lia|]. split; [reflexivity|]. split; [reflexivity|].
  refine (man_pages_one_page_each 0%nat 1%nat
            (ManPage "ref/pgcopydb" "pgcopydb" "pgcopydb" [author] 1)
            (ManPage "ref/pgcopydb_config" "pgcopydb" "pgcopydb" [author] 5) _ _ _);
    [lia | reflexivity | reflexivity].
Defined.

End ConfFacts.
